(** * Breast-cancer screening front end: view/laterality hints, risk classes
      and the mapping of the [/analyze] response

    Shallow embedding of the pure parts of [frontend/src/App.js]:
    - [extractViewCodeFromFilename] (lines 235-254),
    - the provisional [view_analysis] record that [handleFileChange]
      (lines 203-232) and [handleDrop] (lines 266-290) put into [results],
    - [getRiskClass] (lines 515-530),
    - the construction of [resultData] in [analyzeFile] (lines 341-366)
      and the message of its [catch] (lines 383-397),
    - [getDefaultApiBase], [buildEndpoint], [asDataUrl] (lines 45-75),
    - [saveToHistory], [removeFromHistory] and the name shown for an entry
      of the history (lines 112-135, 618),
    - [handleDownloadImage], [getActiveVisualImage], [getResultClass]
      (lines 464-513, 532-540).

    JavaScript strings are modelled as [string]; a JavaScript Number as an
    IEEE-754 binary64 value ([spec_float] with precision 53 and maximal
    exponent 1024); a property that may be missing or [null] as [jsopt]. *)

From Stdlib Require Import Bool List String Ascii ZArith Lia.
From Stdlib Require Import Floats.SpecFloat.
Import ListNotations.

Local Open Scope string_scope.

(** ** JavaScript strings *)

Module JsString.

(** [s.includes(needle)]: [needle] occurs in [s] as a contiguous run. *)
Fixpoint includes (s needle : string) : bool :=
  String.prefix needle s ||
  match s with
  | EmptyString => false
  | String _ s' => includes s' needle
  end.

Definition is_lower (c : ascii) : bool :=
  let n := nat_of_ascii c in (97 <=? n)%nat && (n <=? 122)%nat.

Definition is_upper (c : ascii) : bool :=
  let n := nat_of_ascii c in (65 <=? n)%nat && (n <=? 90)%nat.

Definition upper_char (c : ascii) : ascii :=
  if is_lower c then ascii_of_nat (nat_of_ascii c - 32) else c.

Definition lower_char (c : ascii) : ascii :=
  if is_upper c then ascii_of_nat (nat_of_ascii c + 32) else c.

Fixpoint map_chars (f : ascii -> ascii) (s : string) : string :=
  match s with
  | EmptyString => EmptyString
  | String c s' => String (f c) (map_chars f s')
  end.

(** [s.toUpperCase()] and [s.toLowerCase()] on the ASCII letters; every
    other character is kept.  The general theorems below only look at the
    converted name, so they do not depend on how a character outside ASCII
    is converted. *)
Definition toUpperCase : string -> string := map_chars upper_char.
Definition toLowerCase : string -> string := map_chars lower_char.

(** Truthiness of a string: only the empty string is falsy. *)
Definition truthy (s : string) : bool :=
  match s with EmptyString => false | String _ _ => true end.

End JsString.

Import JsString.

(** ** Values that may be [undefined] or [null] *)

Inductive jsopt (A : Type) : Type :=
| undefined : jsopt A
| null : jsopt A
| val : A -> jsopt A.

Arguments undefined {A}.
Arguments null {A}.
Arguments val {A} _.

(** [a ?? b]: [b] when [a] is [undefined] or [null], else [a]. *)
Definition nullish {A : Type} (a b : jsopt A) : jsopt A :=
  match a with
  | undefined | null => b
  | val _ => a
  end.

Notation "a ?? b" := (nullish a b) (at level 45, right associativity).

(** [a || b] on a value that is an object when present: an object is truthy,
    [undefined] and [null] are falsy. *)
Definition or_object {A : Type} (a b : jsopt A) : jsopt A :=
  match a with
  | undefined | null => b
  | val _ => a
  end.

(** ** JavaScript numbers: IEEE-754 binary64 *)

Definition number : Type := spec_float.

Module JsNumber.

Definition prec : Z := 53.
Definition emax : Z := 1024.

(** The number denoted by the literal [m * 2^e]. *)
Definition literal (m e : Z) : number := binary_normalize prec emax m e false.

Definition one : number := literal 1 0.
Definition hundred : number := literal 100 0.
Definition half : number := literal 1 (-1).

Definition mul : number -> number -> number := SFmul prec emax.
Definition leb : number -> number -> bool := SFleb.
Definition ltb : number -> number -> bool := SFltb.

(** [ToNumber] on the values a numeric property of the parsed response can
    take: [undefined] is [NaN], [null] is [+0]. *)
Definition ToNumber (v : jsopt number) : number :=
  match v with
  | undefined => S754_nan
  | null => S754_zero false
  | val x => x
  end.

(** [v !== undefined] *)
Definition is_defined {A : Type} (v : jsopt A) : bool :=
  match v with
  | undefined => false
  | null | val _ => true
  end.

End JsNumber.

(** ** Filename-based view classification *)

(** [extractViewCodeFromFilename]: the chain of [if ... else if] of the
    source, [None] standing for the final [return null]. *)
Definition extractViewCodeFromFilename (filename : string) : option string :=
  let upperName := toUpperCase filename in
  if includes upperName "LMLO" || includes upperName "LEFT_MLO"
     || includes upperName "L-MLO" then
    Some "L-MLO"
  else if includes upperName "RMLO" || includes upperName "RIGHT_MLO"
          || includes upperName "R-MLO" then
    Some "R-MLO"
  else if includes upperName "LCC" || includes upperName "LEFT_CC"
          || includes upperName "L-CC" then
    Some "LCC"
  else if includes upperName "RCC" || includes upperName "RIGHT_CC"
          || includes upperName "R-CC" then
    Some "RCC"
  else if includes upperName "MLO" then
    Some "MLO"
  else if includes upperName "CC" then
    Some "CC"
  else
    None.

(** ** The [results] state and the provisional view analysis *)

Record ViewAnalysis : Type := mkViewAnalysis {
  view_code : string;
  laterality : string;
  laterality_code : string;
  image_quality : string;
  quality_score : jsopt number
}.

(** The fields of [results] that the modelled code reads or writes with a
    scalar or record value.  The image blobs, [riskIcon], [riskColor],
    [stats] and [findings] are passed through by the source untouched and
    are left out. *)
Record Results : Type := mkResults {
  malignant : jsopt number;
  benign : jsopt number;
  risk : jsopt string;
  result : jsopt string;
  confidence : jsopt number;
  rawScore : jsopt number;
  threshold : jsopt number;
  view_analysis : jsopt ViewAnalysis
}.

(** [useState({})]: no property is set. *)
Definition emptyResults : Results :=
  mkResults undefined undefined undefined undefined
            undefined undefined undefined undefined.

(** [{...prev, view_analysis: va}] *)
Definition with_view_analysis (prev : Results) (va : ViewAnalysis) : Results :=
  mkResults (malignant prev) (benign prev) (risk prev) (result prev)
            (confidence prev) (rawScore prev) (threshold prev) (val va).

(** The part of the application state the two handlers write at once
    (the reading of the file for the history and the request started by
    [analyzeFile] complete later and are not part of the step). *)
Record AppState : Type := mkAppState {
  file : option string;
  results : Results
}.

(** [handleFileChange]: [files] is [e.target.files], a file being
    represented by its [name].  The test [if (viewCode)] fails on [null] and
    on the empty string. *)
Definition handleFileChange (files : list string) (st : AppState) : AppState :=
  match files with
  | [] => st
  | selectedFile :: _ =>
      let viewCode := extractViewCodeFromFilename selectedFile in
      let prev := results st in
      mkAppState (Some selectedFile)
        (match viewCode with
         | Some vc =>
             if truthy vc then
               with_view_analysis prev
                 (mkViewAnalysis vc
                    (if includes vc "L" && negb (includes vc "R")
                     then "Left" else "Right")
                    (if includes vc "L" && negb (includes vc "R")
                     then "L" else "R")
                    "Analyzing..."
                    null)
             else prev
         | None => prev
         end)
  end.

(** [handleDrop]: [files] is [e.dataTransfer.files]; the source repeats the
    construction of [handleFileChange]. *)
Definition handleDrop (files : list string) (st : AppState) : AppState :=
  match files with
  | [] => st
  | droppedFile :: _ =>
      let viewCode := extractViewCodeFromFilename droppedFile in
      let prev := results st in
      mkAppState (Some droppedFile)
        (match viewCode with
         | Some vc =>
             if truthy vc then
               with_view_analysis prev
                 (mkViewAnalysis vc
                    (if includes vc "L" && negb (includes vc "R")
                     then "Left" else "Right")
                    (if includes vc "L" && negb (includes vc "R")
                     then "L" else "R")
                    "Analyzing..."
                    null)
             else prev
         | None => prev
         end)
  end.

(** ** Risk class of the displayed risk label *)

(** [getRiskClass]: [results.risk?.toLowerCase() || ""] followed by the
    chain of tests.  The optional chaining turns a missing or [null] risk
    into [undefined], and [||] turns [undefined] and the empty string into
    the empty string. *)
Definition getRiskClass (r : Results) : string :=
  let risk :=
    match risk r with
    | val s => if truthy (toLowerCase s) then toLowerCase s else ""
    | undefined | null => ""
    end in
  if includes risk "very high risk" then "risk-high"
  else if includes risk "high risk" && negb (includes risk "moderate") then
    "risk-high"
  else if includes risk "moderate" then "risk-moderate"
  else if includes risk "very low risk" then "risk-low"
  else if includes risk "low risk" then "risk-low"
  else "".

(** The five labels of the Risk Assessment Guide list (lines 1320-1326). *)
Definition risk_labels : list string :=
  ["Very Low Risk"; "Low Risk"; "Moderate Risk"; "High Risk"; "Very High Risk"].

(** ** The [/analyze] response and the displayed result record *)

(** The parsed body [data] of the response, with the properties read by the
    modelled fields of [resultData]. *)
Module Data.

Record t : Type := mk {
  malignant_prob : jsopt number;
  benign_prob : jsopt number;
  risk_level : jsopt string;
  result : jsopt string;
  confidence : jsopt number;
  threshold : jsopt number;
  view_analysis : jsopt ViewAnalysis
}.

End Data.

(** [confidencePercent] of [analyzeFile], as a function of [data.confidence]:
    [c !== undefined && c <= 1 ? c * 100 : c ?? null]. *)
Definition confidencePercent (c : jsopt number) : jsopt number :=
  if JsNumber.is_defined c && JsNumber.leb (JsNumber.ToNumber c) JsNumber.one
  then val (JsNumber.mul (JsNumber.ToNumber c) JsNumber.hundred)
  else c ?? null.

(** [resultData] of [analyzeFile]. *)
Definition resultData (data : Data.t) : Results :=
  mkResults
    (Data.malignant_prob data ?? null)
    (Data.benign_prob data ?? null)
    (Data.risk_level data ?? val "Unavailable")
    (Data.result data ?? val "Analysis Result")
    (confidencePercent (Data.confidence data))
    (Data.confidence data ?? null)
    (Data.threshold data ?? val JsNumber.half)
    (or_object (Data.view_analysis data) null).

(** The result record of a response that carries only a risk level. *)
Definition resultDataRisk (label : string) : Results :=
  resultData
    (Data.mk undefined undefined (val label) undefined undefined undefined
             undefined).

(** ** The classification order as the specification words it *)

Definition LMLO_tokens : list string := ["LMLO"; "LEFT_MLO"; "L-MLO"].
Definition RMLO_tokens : list string := ["RMLO"; "RIGHT_MLO"; "R-MLO"].
Definition LCC_tokens : list string := ["LCC"; "LEFT_CC"; "L-CC"].
Definition RCC_tokens : list string := ["RCC"; "RIGHT_CC"; "R-CC"].

(** The tokens naming a side. *)
Definition L_side_tokens : list string := LMLO_tokens ++ LCC_tokens.
Definition R_side_tokens : list string := RMLO_tokens ++ RCC_tokens.
Definition side_tokens : list string := L_side_tokens ++ R_side_tokens.

(** An entry of the order: the tokens of a view and its code. *)
Definition view_order : list (list string * string) :=
  [ (LMLO_tokens, "L-MLO"); (RMLO_tokens, "R-MLO");
    (LCC_tokens, "LCC"); (RCC_tokens, "RCC");
    (["MLO"], "MLO"); (["CC"], "CC") ].

(** The name contains one of the tokens. *)
Definition has_token (upperName : string) (tokens : list string) : bool :=
  existsb (includes upperName) tokens.

(** First match wins: the code of the earliest entry of [view_order] one of
    whose tokens the name contains. *)
Definition first_match (upperName : string) : option string :=
  option_map snd (find (fun e => has_token upperName (fst e)) view_order).

(** The view codes of the closed enumeration. *)
Definition view_codes : list string :=
  ["L-MLO"; "R-MLO"; "LCC"; "RCC"; "MLO"; "CC"].

(** The state before any file is chosen. *)
Definition initialState : AppState := mkAppState None emptyResults.

(** Laterality and laterality code agree. *)
Definition laterality_consistent (va : ViewAnalysis) : Prop :=
  (laterality va = "Left" <-> laterality_code va = "L") /\
  (laterality va = "Right" <-> laterality_code va = "R").

(** The record both handlers build for a view code (the source writes it
    out twice, inline). *)
Definition provisional (vc : string) : ViewAnalysis :=
  mkViewAnalysis vc
    (if includes vc "L" && negb (includes vc "R") then "Left" else "Right")
    (if includes vc "L" && negb (includes vc "R") then "L" else "R")
    "Analyzing..." null.

(** A view code of the left side: it contains the letter L and does not
    contain the letter R. *)
Definition left_code (vc : string) : Prop :=
  includes vc "L" = true /\ includes vc "R" = false.

(** * The rest of the component: endpoints, history, images, messages *)

(** ** More string operations *)

Module JsText.

(** [s.startsWith(p)] *)
Definition startsWith (s p : string) : bool := String.prefix p s.

(** [s.endsWith(p)]: [p] is [s] or a proper suffix of it. *)
Fixpoint endsWith (s p : string) : bool :=
  String.eqb s p ||
  match s with
  | EmptyString => false
  | String _ s' => endsWith s' p
  end.

(** [s.slice(0, -1)]: [s] without its last character; the empty string
    stays empty. *)
Fixpoint slice_0_m1 (s : string) : string :=
  match s with
  | EmptyString => EmptyString
  | String c EmptyString => EmptyString
  | String c s' => String c (slice_0_m1 s')
  end.

(** [s.replace(/\/$/, "")]: without the flag [m], [$] is the end of the
    input, so one slash at the very end is removed. *)
Definition replace_trailing_slash (s : string) : string :=
  if endsWith s "/" then slice_0_m1 s else s.

(** White space and line terminators among the ASCII characters: TAB, LF,
    VT, FF, CR and SP.  (The white space of ECMAScript outside ASCII is not
    represented.) *)
Definition is_white_space (c : ascii) : bool :=
  let n := nat_of_ascii c in
  ((9 <=? n)%nat && (n <=? 13)%nat) || (n =? 32)%nat.

Fixpoint trimStart (s : string) : string :=
  match s with
  | EmptyString => EmptyString
  | String c s' => if is_white_space c then trimStart s' else s
  end.

Fixpoint trimEnd (s : string) : string :=
  match s with
  | EmptyString => EmptyString
  | String c s' =>
      match trimEnd s' with
      | EmptyString => if is_white_space c then EmptyString
                       else String c EmptyString
      | t => String c t
      end
  end.

(** All the characters are white space. *)
Fixpoint blank (s : string) : bool :=
  match s with
  | EmptyString => true
  | String c s' => is_white_space c && blank s'
  end.

(** [s.trim()] *)
Definition trim (s : string) : string := trimEnd (trimStart s).

(** Truthiness of a string property: [undefined], [null] and the empty
    string are falsy. *)
Definition truthy_opt (v : jsopt string) : bool :=
  match v with
  | val s => truthy s
  | undefined | null => false
  end.

(** [a || b] on string properties. *)
Definition or_string (a b : jsopt string) : jsopt string :=
  if truthy_opt a then a else b.

End JsText.

(** ** The base of the API and the endpoints (lines 45-73, 78-79) *)

Definition localHosts : list string := ["localhost"; "127.0.0.1"; "0.0.0.0"].

Definition productionUrl : string :=
  "https://breast-cancer-backend-3aei.onrender.com".

(** [getDefaultApiBase]: [hostname] is [window.location.hostname], [None]
    when there is no [window]; [envUrl] is
    [process.env.REACT_APP_API_BASE_URL]. *)
Definition getDefaultApiBase (hostname : option string) (envUrl : jsopt string)
  : string :=
  if match hostname with
     | Some h => existsb (String.eqb h) localHosts
     | None => false
     end
  then "http://localhost:8001"
  else
    match envUrl with
    | val u =>
        if truthy u && (0 <? String.length (JsText.trim u))%nat
        then JsText.replace_trailing_slash u
        else productionUrl
    | undefined | null => productionUrl
    end.

(** [buildEndpoint] *)
Definition buildEndpoint (base endpoint : string) : string :=
  let safeBase :=
    if JsText.endsWith base "/" then JsText.slice_0_m1 base else base in
  let safeEndpoint :=
    if JsText.startsWith endpoint "/" then endpoint else "/" ++ endpoint in
  safeBase ++ safeEndpoint.

(** The host is one of the local ones. *)
Definition is_local (hostname : option string) : bool :=
  match hostname with
  | Some h => existsb (String.eqb h) localHosts
  | None => false
  end.

(** [apiUrl] of the component, its [apiBase] being computed from the
    environment. *)
Definition apiUrl (hostname : option string) (envUrl : jsopt string)
  (endpoint : string) : string :=
  buildEndpoint (getDefaultApiBase hostname envUrl) endpoint.

(** ** The upload history (lines 112-135, 618) *)

Module History.

(** An entry: [id] is [Date.now()], a count of milliseconds; [timestamp] is
    the text of [new Date().toISOString()]. *)
Record entry : Type := mkEntry {
  id : Z;
  name : string;
  data : string;
  timestamp : string
}.

(** The updater [saveToHistory] passes to [setUploadHistory]; [now] and
    [iso] are the two readings of the clock.  The list returned is also the
    one written, serialised, to [localStorage]. *)
Definition saveToHistory (now : Z) (iso : string) (fileName fileData : string)
  (prev : list entry) : list entry :=
  let newEntry := mkEntry now fileName fileData iso in
  firstn 5
    (newEntry :: filter (fun h => negb (String.eqb (name h) fileName)) prev).

(** The updater of [removeFromHistory]. *)
Definition removeFromHistory (id0 : Z) (prev : list entry) : list entry :=
  filter (fun h => negb (Z.eqb (id h) id0)) prev.

(** The name shown for an entry of the history:
    [name.length > 25 ? name.substring(0, 22) + '...' : name]. *)
Definition shownName (item : entry) : string :=
  if (25 <? String.length (name item))%nat
  then String.substring 0 22 (name item) ++ "..."
  else name item.

(** The test of the filter of [saveToHistory]: an entry of another name. *)
Definition keep_other (fileName : string) (h : entry) : bool :=
  negb (String.eqb (name h) fileName).

(** At most five entries, of distinct names. *)
Definition bounded_distinct (h : list entry) : Prop :=
  (List.length h <= 5)%nat /\ NoDup (map name h).

(** An operation on the history. *)
Inductive op : Type :=
| Save (now : Z) (iso fileName fileData : string)
| Remove (id0 : Z).

Definition step (h : list entry) (o : op) : list entry :=
  match o with
  | Save now iso fileName fileData => saveToHistory now iso fileName fileData h
  | Remove id0 => removeFromHistory id0 h
  end.

(** The history after a run of operations, from the state [useState([])]. *)
Definition run (ops : list op) : list entry := fold_left step ops [].

End History.

(** ** The images of the result (lines 75, 342, 349-353, 501-513, 464-499) *)

(** [asDataUrl] *)
Definition asDataUrl (value : jsopt string) : jsopt string :=
  if JsText.truthy_opt value
  then match value with
       | val s => val ("data:image/png;base64," ++ s)
       | undefined | null => null
       end
  else null.

(** The property [images] of the response. *)
Module Images.

Record t : Type := mk {
  original : jsopt string;
  overlay : jsopt string;
  heatmap_only : jsopt string;
  bbox : jsopt string;
  cancer_type : jsopt string
}.

(** The object [{}]. *)
Definition empty : t := mk undefined undefined undefined undefined undefined.

End Images.

(** The five image properties of [results]. *)
Module Visuals.

Record t : Type := mk {
  original : jsopt string;
  overlay : jsopt string;
  heatmap : jsopt string;
  bbox : jsopt string;
  cancer_type : jsopt string
}.

End Visuals.

(** The image properties of [resultData], with [images = data.images || {}]. *)
Definition resultVisuals (data_images : jsopt Images.t) : Visuals.t :=
  let images :=
    match data_images with
    | val i => i
    | undefined | null => Images.empty
    end in
  Visuals.mk (asDataUrl (Images.original images))
             (asDataUrl (Images.overlay images))
             (asDataUrl (Images.heatmap_only images))
             (asDataUrl (Images.bbox images))
             (asDataUrl (Images.cancer_type images)).

(** [getActiveVisualImage] *)
Definition getActiveVisualImage (visualTab : string) (r : Visuals.t)
  : jsopt string :=
  if String.eqb visualTab "heatmap" then Visuals.heatmap r
  else if String.eqb visualTab "bbox" then Visuals.bbox r
  else if String.eqb visualTab "original" then
    JsText.or_string (Visuals.cancer_type r) (Visuals.original r)
  else Visuals.overlay r.

(** What [handleDownloadImage] does: it sets the error message and stops, or
    clicks a link with the given [href] and [download] name and sets the
    status message. *)
Inductive download : Type :=
| NoDownload (errorMessage : string)
| Download (href filename statusMessage : string).

(** [handleDownloadImage] *)
Definition handleDownloadImage (visualTab : string) (r : Visuals.t)
  : download :=
  match getActiveVisualImage visualTab r with
  | val imageUrl =>
      if truthy imageUrl then
        let filename :=
          if String.eqb visualTab "heatmap" then "mammogram_heatmap.png"
          else if String.eqb visualTab "bbox" then "region_detection.png"
          else if String.eqb visualTab "original" then
            "type_of_cancer_detection.png"
          else "mammogram_overlay.png" in
        Download imageUrl filename ("Downloaded: " ++ filename)
      else NoDownload "No image available to download"
  | undefined | null => NoDownload "No image available to download"
  end.

(** ** The class of the result label (lines 532-540) *)

(** [getResultClass] *)
Definition getResultClass (r : Results) : string :=
  let result :=
    match result r with
    | val s => if truthy (toLowerCase s) then toLowerCase s else ""
    | undefined | null => ""
    end in
  if includes result "malignant" || includes result "cancerous" then
    "result-malignant"
  else if includes result "benign" || includes result "non-cancerous" then
    "result-benign"
  else "".

(** ** The message of a failed analysis (lines 383-397) *)

Module JsError.

Record t : Type := mk {
  name : string;
  message : string
}.

End JsError.

(** The [errorMsg] computed in the [catch] of [analyzeFile]. *)
Definition analysisErrorMessage (apiBase : string) (error : JsError.t)
  : string :=
  if String.eqb (JsError.name error) "AbortError" then
    "Request timed out. The backend server may be starting up (this can take 1-2 minutes on free hosting). Please try again."
  else if includes (JsError.message error) "Failed to fetch"
          || includes (JsError.message error) "NetworkError" then
    "Cannot connect to backend at " ++ apiBase
    ++ ". Please check if the backend is running and CORS is enabled."
  else if truthy (JsError.message error) then JsError.message error
  else "Backend not reachable.".

(** The characters of a string are ASCII. *)
Fixpoint is_ascii (s : string) : bool :=
  match s with
  | EmptyString => true
  | String c s' => (nat_of_ascii c <? 128)%nat && is_ascii s'
  end.

(** * Properties *)

(** ** Substring test *)

Lemma prefix_app (n s : string) :
  String.prefix n s = true <-> exists b, s = n ++ b.
Proof.
  revert s; induction n as [|c n IH]; intros s; simpl.
  - split; [intros _; exists s; reflexivity | intros _; now destruct s].
  - destruct s as [|d s]; simpl.
    + split; [discriminate | intros [b Hb]; discriminate].
    + destruct (ascii_dec c d) as [->|Hcd].
      * rewrite IH; split; intros [b Hb]; exists b.
        -- now rewrite Hb.
        -- now injection Hb.
      * split; [discriminate | intros [b Hb]; injection Hb; intros; congruence].
Qed.

(** [includes] decides the occurrence of the needle between a left and a
    right context. *)
Lemma includes_app (s n : string) :
  includes s n = true <-> exists a b, s = a ++ n ++ b.
Proof.
  induction s as [|c s IH]; cbn [includes].
  - rewrite orb_false_r, prefix_app; split.
    + intros [b Hb]; exists "", b; exact Hb.
    + intros [a [b Hb]]; destruct a; simpl in Hb; [now exists b|discriminate].
  - rewrite orb_true_iff, prefix_app, IH; split.
    + intros [[b Hb]|[a [b Hb]]].
      * exists "", b; exact Hb.
      * exists (String c a), b; simpl; now rewrite Hb.
    + intros [a [b Hb]]; destruct a as [|d a]; simpl in Hb.
      * left; now exists b.
      * right; exists a, b; now injection Hb.
Qed.

Lemma append_assoc (a b c : string) : (a ++ b) ++ c = a ++ b ++ c.
Proof.
  induction a as [|x a IH]; simpl; [reflexivity | now rewrite IH].
Qed.

(** A string that includes [n] includes every string [n] includes. *)
Lemma includes_trans (s n m : string) :
  includes s n = true -> includes n m = true -> includes s m = true.
Proof.
  rewrite !includes_app; intros [a [b ->]] [a' [b' ->]].
  exists (a ++ a'), (b' ++ b); now rewrite !append_assoc.
Qed.

(** ** The view code of a name *)

Ltac split_includes u :=
  repeat match goal with
         | |- context [includes u ?tok] =>
             destruct (includes u tok) eqn:?; cbn
         end.

(** The chain of tests computes the first match of [view_order]. *)
Lemma chain_first_match (filename : string) :
  extractViewCodeFromFilename filename = first_match (toUpperCase filename).
Proof.
  unfold extractViewCodeFromFilename, first_match.
  generalize (toUpperCase filename); intros u.
  cbn; split_includes u; reflexivity.
Qed.

(** Every view code is one of the six of the enumeration, all of them
    non-empty strings. *)
Lemma view_code_closed (filename vc : string) :
  extractViewCodeFromFilename filename = Some vc -> In vc view_codes.
Proof.
  unfold extractViewCodeFromFilename.
  generalize (toUpperCase filename); intros u.
  cbn; split_includes u; intros H; inversion H; subst; simpl; tauto.
Qed.

Lemma view_codes_truthy (vc : string) : In vc view_codes -> truthy vc = true.
Proof.
  simpl; intros H; repeat destruct H as [<-|H]; try reflexivity; contradiction.
Qed.

Lemma handlers_some (filename : string) (rest : list string) (st : AppState)
  (vc : string) :
  extractViewCodeFromFilename filename = Some vc ->
  results (handleFileChange (filename :: rest) st)
    = with_view_analysis (results st) (provisional vc) /\
  results (handleDrop (filename :: rest) st)
    = with_view_analysis (results st) (provisional vc).
Proof.
  intros H; unfold handleFileChange, handleDrop; cbn zeta; rewrite H.
  rewrite (view_codes_truthy vc (view_code_closed _ _ H)).
  split; reflexivity.
Qed.

Lemma handlers_none (filename : string) (rest : list string) (st : AppState) :
  extractViewCodeFromFilename filename = None ->
  results (handleFileChange (filename :: rest) st) = results st /\
  results (handleDrop (filename :: rest) st) = results st.
Proof.
  intros H; unfold handleFileChange, handleDrop; cbn zeta; rewrite H.
  split; reflexivity.
Qed.

(** ** Order of the tests *)

Lemma find_earliest {A : Type} (p : A -> bool) (l : list A) (i : nat) (e : A) :
  nth_error l i = Some e ->
  p e = true ->
  (forall j e', (j < i)%nat -> nth_error l j = Some e' -> p e' = false) ->
  find p l = Some e.
Proof.
  revert i; induction l as [|x l IH]; intros i Hi He Hbefore.
  - destruct i; discriminate.
  - destruct i as [|i]; simpl in Hi |- *.
    + injection Hi as ->; now rewrite He.
    + rewrite (Hbefore 0%nat x); [|lia|reflexivity].
      apply (IH i); trivial.
      intros j e' Hj Hn; apply (Hbefore (S j) e'); [lia|exact Hn].
Qed.

(** C1: the classification is first-match-wins in the order L-MLO, R-MLO,
    LCC, RCC, MLO, CC.  Whatever else the upper-cased name contains, the view
    code is that of the earliest entry of [view_order] one of whose tokens it
    contains: an entry that matches while no entry before it does decides
    the result. *)
Theorem first_match_wins (filename : string) (i : nat)
  (tokens : list string) (code : string) :
  nth_error view_order i = Some (tokens, code) ->
  has_token (toUpperCase filename) tokens = true ->
  (forall j tokens' code', (j < i)%nat ->
     nth_error view_order j = Some (tokens', code') ->
     has_token (toUpperCase filename) tokens' = false) ->
  extractViewCodeFromFilename filename = Some code.
Proof.
  intros Hi Hm Hbefore.
  rewrite chain_first_match; unfold first_match.
  rewrite (find_earliest _ view_order i (tokens, code)); trivial.
  intros j [tokens' code'] Hj Hn; exact (Hbefore j tokens' code' Hj Hn).
Qed.

(** A name with an R-MLO token and an LCC token: the R-MLO entry, the second
    of the order, wins over the LCC entry, the third, since the first does
    not match. *)
Lemma first_match_wins_witness :
  has_token (toUpperCase "scan_rmlo_lcc.png") LCC_tokens = true /\
  extractViewCodeFromFilename "scan_rmlo_lcc.png" = Some "R-MLO".
Proof.
  split; [reflexivity|].
  apply (first_match_wins "scan_rmlo_lcc.png" 1 RMLO_tokens "R-MLO").
  - reflexivity.
  - reflexivity.
  - intros j tokens' code' Hj Hn.
    destruct j as [|j]; [|lia].
    injection Hn as <- _; reflexivity.
Defined.

(** A name with an L-MLO token and a CC token yields "L-MLO". *)
Example lmlo_before_cc :
  has_token (toUpperCase "L-MLO_or_CC.jpg") ["CC"] = true /\
  extractViewCodeFromFilename "L-MLO_or_CC.jpg" = Some "L-MLO".
Proof. split; reflexivity. Qed.

(** ** The provisional view analysis *)

Lemma provisional_left (vc : string) :
  left_code vc ->
  laterality (provisional vc) = "Left" /\ laterality_code (provisional vc) = "L".
Proof.
  intros [HL HR]; unfold provisional; simpl; rewrite HL, HR; split; reflexivity.
Qed.

Lemma provisional_right (vc : string) :
  ~ left_code vc ->
  laterality (provisional vc) = "Right" /\ laterality_code (provisional vc) = "R".
Proof.
  intros Hn; unfold provisional, left_code in *; simpl.
  destruct (includes vc "L"), (includes vc "R"); simpl;
    try (split; reflexivity); exfalso; apply Hn; split; reflexivity.
Qed.

Lemma left_code_dec (vc : string) : left_code vc \/ ~ left_code vc.
Proof.
  unfold left_code; destruct (includes vc "L"), (includes vc "R");
    intuition discriminate.
Qed.

(** C2: for every extracted view code, on both paths, the laterality is
    "Left" exactly when the code contains the letter L and does not contain
    the letter R, and "Right" otherwise; the laterality code is "L" or "R"
    correspondingly. *)
Theorem laterality_of_view_code (filename : string) (rest : list string)
  (st : AppState) (vc : string) :
  extractViewCodeFromFilename filename = Some vc ->
  exists va,
    view_analysis (results (handleFileChange (filename :: rest) st)) = val va /\
    view_analysis (results (handleDrop (filename :: rest) st)) = val va /\
    view_code va = vc /\
    (laterality va = "Left" <-> left_code vc) /\
    (laterality va = "Right" <-> ~ left_code vc) /\
    (laterality_code va = "L" <-> left_code vc) /\
    (laterality_code va = "R" <-> ~ left_code vc).
Proof.
  intros H; destruct (handlers_some filename rest st vc H) as [Hc Hd].
  exists (provisional vc); rewrite Hc, Hd.
  split; [reflexivity|]; split; [reflexivity|]; split; [reflexivity|].
  destruct (left_code_dec vc) as [Hl|Hr].
  - destruct (provisional_left vc Hl) as [-> ->].
    intuition discriminate.
  - destruct (provisional_right vc Hr) as [-> ->].
    intuition discriminate.
Qed.

Lemma laterality_of_view_code_witness :
  exists va,
    view_analysis (results (handleFileChange ["IMG_rcc_2.png"] initialState))
      = val va /\
    view_analysis (results (handleDrop ["IMG_rcc_2.png"] initialState))
      = val va /\
    view_code va = "RCC" /\
    (laterality va = "Left" <-> left_code "RCC") /\
    (laterality va = "Right" <-> ~ left_code "RCC") /\
    (laterality_code va = "L" <-> left_code "RCC") /\
    (laterality_code va = "R" <-> ~ left_code "RCC").
Proof.
  apply (laterality_of_view_code "IMG_rcc_2.png" [] initialState "RCC").
  reflexivity.
Defined.

(** The six codes and their sides. *)
Example sides_of_the_codes :
  map (fun vc => (vc, laterality (provisional vc),
                  laterality_code (provisional vc))) view_codes
  = [ ("L-MLO", "Left", "L"); ("R-MLO", "Right", "R"); ("LCC", "Left", "L");
      ("RCC", "Right", "R"); ("MLO", "Left", "L"); ("CC", "Right", "R") ].
Proof. reflexivity. Qed.

(** ** Names with tokens of both sides *)

(** The statement that a name with an L side token and an R side token
    resolves to Right fails: with an L-MLO token the first test decides, and
    the code "L-MLO" has the letter L and no letter R. *)
Lemma both_sides_left_counterexample :
  has_token (toUpperCase "patient_L-MLO_R-CC.png") L_side_tokens = true /\
  has_token (toUpperCase "patient_L-MLO_R-CC.png") R_side_tokens = true /\
  view_analysis
    (results (handleFileChange ["patient_L-MLO_R-CC.png"] initialState))
  = val (mkViewAnalysis "L-MLO" "Left" "L" "Analyzing..." null) /\
  laterality (mkViewAnalysis "L-MLO" "Left" "L" "Analyzing..." null)
  <> "Right".
Proof.
  repeat split; discriminate.
Qed.

(** The same with the single letter R as the second token. *)
Example lmlo_and_letter_r :
  view_analysis (results (handleFileChange ["L-MLO_R.png"] initialState))
  = val (mkViewAnalysis "L-MLO" "Left" "L" "Analyzing..." null).
Proof. reflexivity. Qed.

(** C3, amended: for a name with an L side token and an R side token the
    laterality follows the first matching entry of the order L-MLO, R-MLO,
    LCC, RCC.  It is "Right" exactly when the name has an R-MLO token and no
    L-MLO token, and "Left" otherwise. *)
Theorem both_sides_first_entry (filename : string) (rest : list string)
  (st : AppState) :
  has_token (toUpperCase filename) L_side_tokens = true ->
  has_token (toUpperCase filename) R_side_tokens = true ->
  exists va,
    view_analysis (results (handleFileChange (filename :: rest) st)) = val va /\
    (laterality va = "Right" <->
       has_token (toUpperCase filename) LMLO_tokens = false /\
       has_token (toUpperCase filename) RMLO_tokens = true) /\
    (laterality va = "Left" <->
       has_token (toUpperCase filename) LMLO_tokens = true \/
       has_token (toUpperCase filename) RMLO_tokens = false).
Proof.
  unfold handleFileChange, extractViewCodeFromFilename.
  generalize (toUpperCase filename); intros u.
  cbn; split_includes u; intros HL HR; try discriminate;
    (eexists; split; [reflexivity|]; cbn; intuition discriminate).
Qed.

Lemma both_sides_first_entry_witness :
  exists va,
    view_analysis (results (handleFileChange ["lcc_or_rmlo.png"] initialState))
      = val va /\
    (laterality va = "Right" <->
       has_token (toUpperCase "lcc_or_rmlo.png") LMLO_tokens = false /\
       has_token (toUpperCase "lcc_or_rmlo.png") RMLO_tokens = true) /\
    (laterality va = "Left" <->
       has_token (toUpperCase "lcc_or_rmlo.png") LMLO_tokens = true \/
       has_token (toUpperCase "lcc_or_rmlo.png") RMLO_tokens = false).
Proof.
  apply (both_sides_first_entry "lcc_or_rmlo.png" [] initialState);
    reflexivity.
Defined.

(** ** A concrete name *)

(** C4: "patient_L-MLO_01.png" gets the view code "L-MLO", the laterality
    "Left" and the laterality code "L". *)
Theorem patient_L_MLO_01 :
  extractViewCodeFromFilename "patient_L-MLO_01.png" = Some "L-MLO" /\
  view_analysis
    (results (handleFileChange ["patient_L-MLO_01.png"] initialState))
  = val (mkViewAnalysis "L-MLO" "Left" "L" "Analyzing..." null) /\
  view_analysis (results (handleDrop ["patient_L-MLO_01.png"] initialState))
  = val (mkViewAnalysis "L-MLO" "Left" "L" "Analyzing..." null).
Proof.
  repeat split.
Qed.

(** ** Totality and the closed enumeration *)

(** C5: for every name the classification returns one of the six codes or
    [null], and when it returns [null] neither handler touches [results]:
    no provisional view analysis is attached. *)
Theorem view_code_total_closed (filename : string) :
  In (extractViewCodeFromFilename filename)
     [Some "L-MLO"; Some "R-MLO"; Some "LCC"; Some "RCC"; Some "MLO";
      Some "CC"; None] /\
  (extractViewCodeFromFilename filename = None ->
   forall rest st,
     results (handleFileChange (filename :: rest) st) = results st /\
     results (handleDrop (filename :: rest) st) = results st).
Proof.
  split.
  - destruct (extractViewCodeFromFilename filename) as [vc|] eqn:E.
    + apply view_code_closed in E; simpl in E |- *.
      repeat destruct E as [<-|E]; tauto.
    + simpl; tauto.
  - intros H rest st; now apply handlers_none.
Qed.

Lemma view_code_total_closed_witness :
  In (extractViewCodeFromFilename "mammogram_0042.png")
     [Some "L-MLO"; Some "R-MLO"; Some "LCC"; Some "RCC"; Some "MLO";
      Some "CC"; None] /\
  results (handleFileChange ["mammogram_0042.png"] initialState)
  = emptyResults /\
  results (handleDrop ["mammogram_0042.png"] initialState) = emptyResults.
Proof.
  destruct (view_code_total_closed "mammogram_0042.png") as [Hin Hnone].
  split; [exact Hin|].
  apply (Hnone eq_refl [] initialState).
Defined.

(** ** Laterality and its code agree *)

(** C8: every provisional view-analysis record built from a name, on the
    file-select path and on the drag-and-drop path, has laterality "Left" if
    and only if its laterality code is "L", and "Right" if and only if the
    code is "R". *)
Theorem provisional_laterality_consistent (filename : string)
  (rest : list string) (st : AppState) (vc : string) :
  extractViewCodeFromFilename filename = Some vc ->
  exists va_select va_drop,
    view_analysis (results (handleFileChange (filename :: rest) st))
      = val va_select /\
    view_analysis (results (handleDrop (filename :: rest) st)) = val va_drop /\
    laterality_consistent va_select /\
    laterality_consistent va_drop.
Proof.
  intros H; destruct (handlers_some filename rest st vc H) as [Hc Hd].
  exists (provisional vc), (provisional vc); rewrite Hc, Hd.
  split; [reflexivity|]; split; [reflexivity|].
  assert (Hcons : laterality_consistent (provisional vc)).
  { unfold laterality_consistent.
    destruct (left_code_dec vc) as [Hl|Hr].
    - destruct (provisional_left vc Hl) as [-> ->]; intuition discriminate.
    - destruct (provisional_right vc Hr) as [-> ->]; intuition discriminate. }
  split; exact Hcons.
Qed.

Lemma provisional_laterality_consistent_witness :
  exists va_select va_drop,
    view_analysis (results (handleFileChange ["left_cc_view.png"] initialState))
      = val va_select /\
    view_analysis (results (handleDrop ["left_cc_view.png"] initialState))
      = val va_drop /\
    laterality_consistent va_select /\
    laterality_consistent va_drop.
Proof.
  apply (provisional_laterality_consistent "left_cc_view.png" [] initialState
           "LCC").
  reflexivity.
Defined.

(** ** Views without a side *)

(** C9: a name with a generic MLO token and no side token gets the view code
    "MLO" with laterality "Left" and code "L"; a name with only a generic CC
    token gets the view code "CC" with laterality "Right" and code "R". *)
Theorem sideless_views_get_a_side (filename : string) (rest : list string)
  (st : AppState) :
  has_token (toUpperCase filename) side_tokens = false ->
  (includes (toUpperCase filename) "MLO" = true ->
   view_analysis (results (handleFileChange (filename :: rest) st))
   = val (mkViewAnalysis "MLO" "Left" "L" "Analyzing..." null)) /\
  (includes (toUpperCase filename) "MLO" = false ->
   includes (toUpperCase filename) "CC" = true ->
   view_analysis (results (handleFileChange (filename :: rest) st))
   = val (mkViewAnalysis "CC" "Right" "R" "Analyzing..." null)).
Proof.
  unfold handleFileChange, extractViewCodeFromFilename.
  generalize (toUpperCase filename); intros u.
  cbn; split_includes u; intros Hside; try discriminate;
    (split; intros; try discriminate; reflexivity).
Qed.

Lemma sideless_views_get_a_side_witness :
  view_analysis (results (handleFileChange ["study7_mlo.png"] initialState))
  = val (mkViewAnalysis "MLO" "Left" "L" "Analyzing..." null) /\
  view_analysis (results (handleFileChange ["study7_cc.png"] initialState))
  = val (mkViewAnalysis "CC" "Right" "R" "Analyzing..." null).
Proof.
  split.
  - apply (sideless_views_get_a_side "study7_mlo.png" [] initialState);
      reflexivity.
  - apply (sideless_views_get_a_side "study7_cc.png" [] initialState);
      reflexivity.
Defined.

(** ** Risk classes of the five labels *)

(** [results] holding only the risk label. *)
Lemma getRiskClass_risk_only (r r' : Results) :
  risk r = risk r' -> getRiskClass r = getRiskClass r'.
Proof.
  unfold getRiskClass; intros ->; reflexivity.
Qed.

(** On an arbitrary risk string the tests are taken in the order of the
    source: "very high risk", then "high risk" without "moderate", then
    "moderate", then the two low ones. *)
Lemma getRiskClass_order (r : Results) (s : string) :
  risk r = val s ->
  toLowerCase s <> "" ->
  (includes (toLowerCase s) "high risk" = true ->
   includes (toLowerCase s) "moderate" = false ->
   getRiskClass r = "risk-high") /\
  (includes (toLowerCase s) "moderate" = true ->
   includes (toLowerCase s) "very high risk" = false ->
   getRiskClass r = "risk-moderate") /\
  (includes (toLowerCase s) "low risk" = true ->
   includes (toLowerCase s) "high risk" = false ->
   includes (toLowerCase s) "moderate" = false ->
   getRiskClass r = "risk-low").
Proof.
  intros Hr Hne; unfold getRiskClass; rewrite Hr.
  destruct (toLowerCase s) as [|c l] eqn:E; [congruence|].
  cbn [truthy]; generalize (String c l); intros u.
  assert (Hvery : includes u "very high risk" = true ->
                  includes u "high risk" = true).
  { intros H; apply (includes_trans u _ _ H); reflexivity. }
  revert Hvery.
  split_includes u; intros Hvery; repeat split; intros;
    try discriminate; try reflexivity;
    specialize (Hvery eq_refl); discriminate.
Qed.

(** Outside the five labels a string with "low risk" can get another
    class. *)
Example low_and_high_risk :
  getRiskClass (resultDataRisk "Low Risk (previously High Risk)")
  = "risk-high".
Proof. reflexivity. Qed.

(** C6: each of the five risk labels has one display class, and it is not
    the empty one: a label containing "very low risk" or "low risk" gets
    "risk-low", one containing "moderate" gets "risk-moderate", and one
    containing "high risk" or "very high risk" and not "moderate" gets
    "risk-high". *)
Theorem risk_labels_classes (r : Results) (label : string) :
  In label risk_labels ->
  risk r = val label ->
  getRiskClass r <> "" /\
  In (getRiskClass r) ["risk-low"; "risk-moderate"; "risk-high"] /\
  (includes (toLowerCase label) "very low risk"
   || includes (toLowerCase label) "low risk" = true ->
   getRiskClass r = "risk-low") /\
  (includes (toLowerCase label) "moderate" = true ->
   getRiskClass r = "risk-moderate") /\
  ((includes (toLowerCase label) "high risk"
    || includes (toLowerCase label) "very high risk")
   && negb (includes (toLowerCase label) "moderate") = true ->
   getRiskClass r = "risk-high").
Proof.
  intros Hin Hr.
  rewrite (getRiskClass_risk_only r
             (mkResults undefined undefined (val label) undefined
                        undefined undefined undefined undefined) Hr).
  simpl in Hin.
  repeat destruct Hin as [<-|Hin]; try contradiction;
    vm_compute; intuition discriminate.
Qed.

Lemma risk_labels_classes_witness :
  getRiskClass (resultDataRisk "Very High Risk") = "risk-high".
Proof.
  apply (risk_labels_classes (resultDataRisk "Very High Risk")
           "Very High Risk").
  - simpl; tauto.
  - reflexivity.
  - reflexivity.
Defined.

(** ** Confidence percent and threshold *)

(** The comparison of binary64 values is antisymmetric. *)
Lemma SFcompare_lt_gt (x y : number) :
  SFcompare x y = Some Lt -> SFcompare y x = Some Gt.
Proof.
  destruct x as [sx|sx| |sx mx ex], y as [sy|sy| |sy my ey]; simpl;
    try destruct sx; try destruct sy; try discriminate; try reflexivity;
    rewrite (Z.compare_antisym ex ey);
    destruct (ex ?= ey)%Z eqn:E; simpl; try discriminate; try reflexivity;
    change (Pos.compare_cont Eq my mx) with (my ?= mx)%positive;
    change (Pos.compare_cont Eq mx my) with (mx ?= my)%positive;
    rewrite (Pos.compare_antisym mx my);
    destruct (mx ?= my)%positive; simpl; try discriminate; reflexivity.
Qed.

(** A number greater than 1 fails the test [c <= 1]. *)
Lemma gt_one_not_le (x : number) :
  JsNumber.ltb JsNumber.one x = true -> JsNumber.leb x JsNumber.one = false.
Proof.
  unfold JsNumber.ltb, JsNumber.leb, SFltb, SFleb.
  destruct (SFcompare JsNumber.one x) as [[| |]|] eqn:E; try discriminate.
  intros _; now rewrite (SFcompare_lt_gt _ _ E).
Qed.

(** C7: in the result record built from the response, the confidence
    percent is the raw confidence times 100 when the raw confidence is
    defined and at most 1, the raw confidence itself when it is greater
    than 1, and [null] when the response has no confidence; the threshold is
    0.5 when the response has none. *)
Theorem confidence_percent_and_threshold (data : Data.t) :
  (JsNumber.is_defined (Data.confidence data) = true ->
   JsNumber.leb (JsNumber.ToNumber (Data.confidence data)) JsNumber.one = true ->
   confidence (resultData data)
   = val (JsNumber.mul (JsNumber.ToNumber (Data.confidence data))
                       JsNumber.hundred)) /\
  (forall x, Data.confidence data = val x ->
   JsNumber.ltb JsNumber.one x = true ->
   confidence (resultData data) = val x) /\
  (Data.confidence data = undefined -> confidence (resultData data) = null) /\
  (Data.threshold data = undefined ->
   threshold (resultData data) = val JsNumber.half).
Proof.
  unfold resultData, confidencePercent; cbn [confidence threshold].
  repeat split.
  - intros -> ->; reflexivity.
  - intros x -> Hgt; cbn [JsNumber.is_defined JsNumber.ToNumber].
    rewrite (gt_one_not_le x Hgt); reflexivity.
  - intros ->; reflexivity.
  - intros ->; reflexivity.
Qed.

(** A response with confidence 0.5 and no threshold shows 50 and keeps the
    default threshold; one with confidence 87 shows 87; one without
    confidence shows none. *)
Lemma confidence_percent_and_threshold_witness :
  confidence (resultData (Data.mk undefined undefined undefined undefined
                                  (val JsNumber.half) undefined undefined))
  = val (JsNumber.literal 50 0) /\
  threshold (resultData (Data.mk undefined undefined undefined undefined
                                 (val JsNumber.half) undefined undefined))
  = val JsNumber.half /\
  confidence (resultData (Data.mk undefined undefined undefined undefined
                                  (val (JsNumber.literal 87 0)) undefined
                                  undefined))
  = val (JsNumber.literal 87 0) /\
  confidence (resultData (Data.mk undefined undefined undefined undefined
                                  undefined undefined undefined))
  = null.
Proof.
  split; [|split; [|split]].
  - destruct (confidence_percent_and_threshold
                (Data.mk undefined undefined undefined undefined
                         (val JsNumber.half) undefined undefined))
      as [H _].
    rewrite H; reflexivity.
  - destruct (confidence_percent_and_threshold
                (Data.mk undefined undefined undefined undefined
                         (val JsNumber.half) undefined undefined))
      as [_ [_ [_ H]]].
    apply H; reflexivity.
  - destruct (confidence_percent_and_threshold
                (Data.mk undefined undefined undefined undefined
                         (val (JsNumber.literal 87 0)) undefined undefined))
      as [_ [H _]].
    apply (H (JsNumber.literal 87 0)); reflexivity.
  - destruct (confidence_percent_and_threshold
                (Data.mk undefined undefined undefined undefined
                         undefined undefined undefined))
      as [_ [_ [H _]]].
    apply H; reflexivity.
Defined.

(** A [null] confidence is defined and, as a number, 0: the percent is 0
    while the raw score stays [null]. *)
Example null_confidence :
  confidencePercent null = val (S754_zero false) /\
  rawScore (resultData (Data.mk undefined undefined undefined undefined
                                null undefined undefined)) = null.
Proof. split; reflexivity. Qed.

(** * Endpoints, history, images and messages *)

(** ** Suffixes and trimming *)

Lemma endsWith_app (s p : string) :
  JsText.endsWith s p = true <-> exists a, s = a ++ p.
Proof.
  induction s as [|c s IH]; cbn [JsText.endsWith].
  - rewrite orb_false_r, String.eqb_eq; split.
    + intros <-; now exists "".
    + intros [a Ha]; destruct a; simpl in Ha; [exact Ha|discriminate].
  - rewrite orb_true_iff, String.eqb_eq, IH; split.
    + intros [<-|[a ->]]; [now exists ""|now exists (String c a)].
    + intros [a Ha]; destruct a as [|d a]; simpl in Ha.
      * now left.
      * right; exists a; now injection Ha.
Qed.

Lemma slice_0_m1_cons (d e : ascii) (t : string) :
  JsText.slice_0_m1 (String d (String e t))
  = String d (JsText.slice_0_m1 (String e t)).
Proof. reflexivity. Qed.

Lemma slice_0_m1_last (a : string) (c : ascii) :
  JsText.slice_0_m1 (a ++ String c "") = a.
Proof.
  induction a as [|d a IH]; [reflexivity|].
  destruct a as [|e a]; [reflexivity|].
  change ((String d (String e a)) ++ String c "")
    with (String d (String e (a ++ String c ""))).
  rewrite slice_0_m1_cons.
  change (String e (a ++ String c "")) with (String e a ++ String c "").
  now rewrite IH.
Qed.

Lemma endsWith_slash_append (b : string) : JsText.endsWith (b ++ "/") "/" = true.
Proof. apply endsWith_app; now exists b. Qed.

Lemma startsWith_slash_append (e : string) :
  JsText.startsWith ("/" ++ e) "/" = true.
Proof. apply prefix_app; now exists e. Qed.

(** [buildEndpoint] in the four combinations of slashes. *)
Lemma buildEndpoint_slash_slash (b e : string) :
  buildEndpoint (b ++ "/") ("/" ++ e) = b ++ "/" ++ e.
Proof.
  unfold buildEndpoint.
  now rewrite endsWith_slash_append, slice_0_m1_last, startsWith_slash_append.
Qed.

Lemma buildEndpoint_slash_none (b e : string) :
  JsText.startsWith e "/" = false ->
  buildEndpoint (b ++ "/") e = b ++ "/" ++ e.
Proof.
  intros He; unfold buildEndpoint.
  now rewrite endsWith_slash_append, slice_0_m1_last, He.
Qed.

Lemma buildEndpoint_none_slash (b e : string) :
  JsText.endsWith b "/" = false ->
  buildEndpoint b ("/" ++ e) = b ++ "/" ++ e.
Proof.
  intros Hb; unfold buildEndpoint.
  now rewrite Hb, startsWith_slash_append.
Qed.

Lemma buildEndpoint_none_none (b e : string) :
  JsText.endsWith b "/" = false ->
  JsText.startsWith e "/" = false ->
  buildEndpoint b e = b ++ "/" ++ e.
Proof.
  intros Hb He; unfold buildEndpoint; now rewrite Hb, He.
Qed.

Lemma replace_trailing_slash_slash (b : string) :
  JsText.replace_trailing_slash (b ++ "/") = b.
Proof.
  unfold JsText.replace_trailing_slash.
  now rewrite endsWith_slash_append, slice_0_m1_last.
Qed.

Lemma replace_trailing_slash_none (b : string) :
  JsText.endsWith b "/" = false -> JsText.replace_trailing_slash b = b.
Proof.
  intros Hb; unfold JsText.replace_trailing_slash; now rewrite Hb.
Qed.

(** A string is trimmed to nothing exactly when all its characters are
    white space. *)
Lemma trimEnd_empty (s : string) :
  JsText.trimEnd s = "" <-> JsText.blank s = true.
Proof.
  induction s as [|c s IH]; simpl; [tauto|].
  destruct (JsText.trimEnd s) as [|d t] eqn:E.
  - destruct (JsText.is_white_space c); simpl.
    + rewrite <- IH; tauto.
    + split; discriminate.
  - split; [discriminate|].
    rewrite andb_true_iff; intros [_ H]; apply IH in H; discriminate.
Qed.

Lemma trimStart_blank (s : string) :
  JsText.blank (JsText.trimStart s) = JsText.blank s.
Proof.
  induction s as [|c s IH]; simpl; [reflexivity|].
  destruct (JsText.is_white_space c) eqn:E; simpl; [exact IH|].
  now rewrite E.
Qed.

Lemma trim_empty (s : string) : JsText.trim s = "" <-> JsText.blank s = true.
Proof.
  unfold JsText.trim; now rewrite trimEnd_empty, trimStart_blank.
Qed.

Lemma blank_append (a b : string) :
  JsText.blank (a ++ b) = JsText.blank a && JsText.blank b.
Proof.
  induction a as [|c a IH]; simpl; [reflexivity|].
  now rewrite IH, andb_assoc.
Qed.

Lemma length_pos_nonempty (s : string) :
  (0 <? String.length s)%nat = negb (String.eqb s "").
Proof. destruct s; reflexivity. Qed.

(** The test [u && u.trim().length > 0] in terms of [blank]. *)
Lemma env_test (u : string) :
  truthy u && (0 <? String.length (JsText.trim u))%nat = negb (JsText.blank u).
Proof.
  rewrite length_pos_nonempty.
  destruct (JsText.blank u) eqn:B.
  - apply trim_empty in B; rewrite B; now rewrite andb_false_r.
  - destruct (JsText.trim u) eqn:T.
    + apply trim_empty in T; congruence.
    + destruct u; [discriminate B|reflexivity].
Qed.

(** ** Endpoints *)

(** X1: a base without a slash at its end and an endpoint without a slash at
    its start are joined by one slash, and it makes no difference whether
    the base is given with the slash, the endpoint is, or both. *)
Theorem buildEndpoint_join (base endpoint : string) :
  JsText.endsWith base "/" = false ->
  JsText.startsWith endpoint "/" = false ->
  buildEndpoint base endpoint = base ++ "/" ++ endpoint /\
  buildEndpoint (base ++ "/") endpoint = base ++ "/" ++ endpoint /\
  buildEndpoint base ("/" ++ endpoint) = base ++ "/" ++ endpoint /\
  buildEndpoint (base ++ "/") ("/" ++ endpoint) = base ++ "/" ++ endpoint.
Proof.
  intros Hb He; repeat split.
  - now apply buildEndpoint_none_none.
  - now apply buildEndpoint_slash_none.
  - now apply buildEndpoint_none_slash.
  - apply buildEndpoint_slash_slash.
Qed.

Lemma buildEndpoint_join_witness :
  buildEndpoint "http://localhost:8001/" "report"
  = "http://localhost:8001" ++ "/" ++ "report".
Proof.
  apply (buildEndpoint_join "http://localhost:8001" "report"); reflexivity.
Defined.

(** X2: one slash only is taken from the end of the base, and the slashes
    at the start of the endpoint are all kept: repeated slashes stay in the
    address. *)
Theorem buildEndpoint_one_slash (base endpoint : string) :
  buildEndpoint (base ++ "//") ("//" ++ endpoint)
  = base ++ "/" ++ "//" ++ endpoint.
Proof.
  replace (base ++ "//") with ((base ++ "/") ++ "/")
    by (rewrite append_assoc; reflexivity).
  change ("//" ++ endpoint) with ("/" ++ "/" ++ endpoint).
  rewrite buildEndpoint_slash_slash.
  apply append_assoc.
Qed.

(** ** The base of the API *)

(** X3: on a local host the configured address is never used: whatever the
    environment variable holds, the base is the local back end, and the
    address of an endpoint that starts with a slash is the local base
    followed by the endpoint. *)
Theorem local_host_ignores_env (h : string) (envUrl : jsopt string)
  (endpoint : string) :
  In h localHosts ->
  getDefaultApiBase (Some h) envUrl = "http://localhost:8001" /\
  apiUrl (Some h) envUrl ("/" ++ endpoint)
  = "http://localhost:8001/" ++ endpoint.
Proof.
  intros Hin.
  assert (E : getDefaultApiBase (Some h) envUrl = "http://localhost:8001").
  { unfold getDefaultApiBase.
    replace (existsb (String.eqb h) localHosts) with true; [reflexivity|].
    symmetry; apply existsb_exists; exists h; split; [exact Hin|].
    apply String.eqb_refl. }
  split; [exact E|].
  unfold apiUrl; rewrite E.
  now rewrite buildEndpoint_none_slash.
Qed.

Lemma local_host_ignores_env_witness :
  getDefaultApiBase (Some "127.0.0.1") (val "https://api.example.org")
  = "http://localhost:8001" /\
  apiUrl (Some "127.0.0.1") (val "https://api.example.org") ("/" ++ "analyze")
  = "http://localhost:8001/" ++ "analyze".
Proof.
  apply (local_host_ignores_env "127.0.0.1" (val "https://api.example.org")
           "analyze").
  simpl; tauto.
Defined.

(** X4: away from the local hosts, a configured address of ASCII characters
    that is not blank and has no slash at its end gives the same endpoint
    addresses when it is written with one or with two slashes at its end:
    the first is removed by [getDefaultApiBase], the second by
    [buildEndpoint]. *)
Theorem env_trailing_slashes (hostname : option string) (b endpoint : string) :
  is_local hostname = false ->
  is_ascii b = true ->
  JsText.blank b = false ->
  JsText.endsWith b "/" = false ->
  apiUrl hostname (val b) ("/" ++ endpoint) = b ++ "/" ++ endpoint /\
  apiUrl hostname (val (b ++ "/")) ("/" ++ endpoint) = b ++ "/" ++ endpoint /\
  apiUrl hostname (val (b ++ "//")) ("/" ++ endpoint) = b ++ "/" ++ endpoint.
Proof.
  intros Hl _ Hb He.
  assert (B1 : JsText.blank (b ++ "/") = false)
    by (rewrite blank_append, Hb; reflexivity).
  assert (B2 : JsText.blank (b ++ "//") = false)
    by (rewrite blank_append, Hb; reflexivity).
  unfold apiUrl, getDefaultApiBase; fold (is_local hostname); rewrite Hl.
  rewrite !env_test, Hb, B1, B2; cbn [negb].
  replace (b ++ "//") with ((b ++ "/") ++ "/")
    by (rewrite append_assoc; reflexivity).
  rewrite !replace_trailing_slash_slash, (replace_trailing_slash_none b He).
  rewrite buildEndpoint_slash_slash, (buildEndpoint_none_slash b _ He).
  repeat split; reflexivity.
Qed.

Lemma env_trailing_slashes_witness :
  apiUrl (Some "screening.example.org") (val "https://api.example.org//")
         "/analyze"
  = "https://api.example.org/analyze".
Proof.
  apply (env_trailing_slashes (Some "screening.example.org")
           "https://api.example.org" "analyze"); reflexivity.
Defined.

(** X5: away from the local hosts, a configured address that is missing,
    [null], empty or made of white space only is not used: the base is the
    production back end. *)
Theorem blank_env_gives_production (hostname : option string)
  (envUrl : jsopt string) :
  is_local hostname = false ->
  (envUrl = undefined \/ envUrl = null \/
   exists u, envUrl = val u /\ JsText.blank u = true) ->
  getDefaultApiBase hostname envUrl = productionUrl.
Proof.
  intros Hl H; unfold getDefaultApiBase; fold (is_local hostname); rewrite Hl.
  destruct H as [->|[->|[u [-> Hu]]]]; try reflexivity.
  now rewrite env_test, Hu.
Qed.

Lemma blank_env_gives_production_witness :
  getDefaultApiBase None (val "   ") = productionUrl.
Proof.
  apply (blank_env_gives_production None (val "   ")); [reflexivity|].
  right; right; exists "   "; split; reflexivity.
Defined.

(** ** The upload history *)

Section HistoryFacts.

Import History.

Lemma in_firstn {A : Type} (n : nat) (l : list A) (x : A) :
  In x (firstn n l) -> In x l.
Proof.
  revert l; induction n as [|n IH]; intros [|y l]; simpl; try tauto.
  intros [->|H]; [now left|right; now apply IH].
Qed.

Lemma distinct_names_filter (keep : entry -> bool) (h : list entry) :
  NoDup (map name h) -> NoDup (map name (filter keep h)).
Proof.
  intros Hnd; induction h as [|x h IH]; simpl; [constructor|].
  simpl in Hnd; apply NoDup_cons_iff in Hnd as [Hnot Hnd].
  destruct (keep x); simpl; [|now apply IH].
  apply NoDup_cons_iff; split; [|now apply IH].
  intros Hin; apply Hnot.
  apply in_map_iff in Hin as [y [Hy Hin]]; apply filter_In in Hin as [Hin _].
  apply in_map_iff; now exists y.
Qed.

Lemma distinct_names_firstn (n : nat) (h : list entry) :
  NoDup (map name h) -> NoDup (map name (firstn n h)).
Proof.
  revert h; induction n as [|n IH]; intros [|x h] Hnd; simpl;
    try constructor.
  - simpl in Hnd; apply NoDup_cons_iff in Hnd as [Hnot _].
    intros Hin; apply Hnot.
    apply in_map_iff in Hin as [y [Hy Hin]]; apply in_firstn in Hin.
    apply in_map_iff; now exists y.
  - simpl in Hnd; apply NoDup_cons_iff in Hnd as [_ Hnd]; now apply IH.
Qed.

Lemma name_not_kept (fileName : string) (l : list entry) :
  ~ In fileName (map name (filter (keep_other fileName) l)).
Proof.
  intros Hin; apply in_map_iff in Hin as [h [Hn Hin]].
  apply filter_In in Hin as [_ Hk]; unfold keep_other in Hk.
  rewrite Hn, String.eqb_refl in Hk; discriminate.
Qed.

Lemma keep_all (fileName : string) (l : list entry) :
  ~ In fileName (map name l) -> filter (keep_other fileName) l = l.
Proof.
  intros Hnot; apply forallb_filter_id, forallb_forall; intros h Hin.
  unfold keep_other; apply negb_true_iff, String.eqb_neq; intros E.
  apply Hnot, in_map_iff; now exists h.
Qed.

Lemma keep_all_but_one (fileName : string) (l : list entry) :
  NoDup (map name l) ->
  In fileName (map name l) ->
  S (List.length (filter (keep_other fileName) l)) = List.length l.
Proof.
  induction l as [|x l IH]; simpl; [tauto|].
  intros Hnd Hin; inversion Hnd as [|? ? Hnot Hnd']; subst.
  unfold keep_other at 1.
  destruct (String.eqb_spec (name x) fileName) as [E|E]; simpl.
  - subst; now rewrite keep_all.
  - destruct Hin as [Hin|Hin]; [contradiction|].
    now rewrite IH.
Qed.

Lemma saveToHistory_cons (now : Z) (iso fileName fileData : string)
  (prev : list entry) :
  saveToHistory now iso fileName fileData prev
  = mkEntry now fileName fileData iso
    :: firstn 4 (filter (keep_other fileName) prev).
Proof. reflexivity. Qed.

Lemma step_keeps (h : list entry) (o : op) :
  bounded_distinct h -> bounded_distinct (step h o).
Proof.
  intros [Hlen Hnd]; destruct o as [now iso fileName fileData|id0];
    cbn [step].
  - split.
    + unfold saveToHistory; apply firstn_le_length.
    + rewrite saveToHistory_cons; cbn [map name]; constructor.
      * intros Hin; apply (name_not_kept fileName h).
        apply in_map_iff in Hin as [y [Hy Hin]]; apply in_firstn in Hin.
        apply in_map_iff; now exists y.
      * now apply distinct_names_firstn, distinct_names_filter.
  - split.
    + unfold removeFromHistory.
      pose proof (filter_length_le (fun h0 => negb (id h0 =? id0)%Z) h); lia.
    + now apply distinct_names_filter.
Qed.

Lemma run_from_keeps (ops : list op) (h : list entry) :
  bounded_distinct h -> bounded_distinct (fold_left step ops h).
Proof.
  revert h; induction ops as [|o ops IH]; intros h Hh; simpl; [exact Hh|].
  now apply IH, step_keeps.
Qed.

(** X6: whatever files are saved and whatever entries are removed, in any
    order, the history never has more than five entries and never has two
    entries of the same name. *)
Theorem history_bounded_distinct (ops : list op) :
  (List.length (run ops) <= 5)%nat /\ NoDup (map name (run ops)).
Proof.
  apply (run_from_keeps ops []); split; simpl; [lia|constructor].
Qed.

(** X7: saving a name that is not in the history puts the new entry first
    and keeps the four most recent entries behind it, in their order; with
    at most four entries nothing is lost. *)
Theorem saveToHistory_new_name (now : Z) (iso fileName fileData : string)
  (prev : list entry) :
  ~ In fileName (map name prev) ->
  saveToHistory now iso fileName fileData prev
  = mkEntry now fileName fileData iso :: firstn 4 prev /\
  ((List.length prev <= 4)%nat ->
   saveToHistory now iso fileName fileData prev
   = mkEntry now fileName fileData iso :: prev).
Proof.
  intros Hnot; rewrite saveToHistory_cons, (keep_all _ _ Hnot).
  split; [reflexivity|].
  intros Hlen; now rewrite firstn_all2.
Qed.

Lemma saveToHistory_new_name_witness :
  saveToHistory 6 "t6" "f.png" "F"
    [mkEntry 5 "e.png" "E" "t5"; mkEntry 4 "d.png" "D" "t4";
     mkEntry 3 "c.png" "C" "t3"; mkEntry 2 "b.png" "B" "t2";
     mkEntry 1 "a.png" "A" "t1"]
  = [mkEntry 6 "f.png" "F" "t6";
     mkEntry 5 "e.png" "E" "t5"; mkEntry 4 "d.png" "D" "t4";
     mkEntry 3 "c.png" "C" "t3"; mkEntry 2 "b.png" "B" "t2"].
Proof.
  refine (proj1 (saveToHistory_new_name 6 "t6" "f.png" "F" _ _)).
  simpl; intuition discriminate.
Defined.

(** X8: saving a name that is already in a history of at most five entries
    with distinct names replaces that entry by the new one, moved to the
    front; the other entries stay, in their order, and the history keeps
    its List.length. *)
Theorem saveToHistory_known_name (now : Z) (iso fileName fileData : string)
  (prev : list entry) :
  In fileName (map name prev) ->
  NoDup (map name prev) ->
  (List.length prev <= 5)%nat ->
  saveToHistory now iso fileName fileData prev
  = mkEntry now fileName fileData iso
    :: filter (fun h => negb (String.eqb (name h) fileName)) prev /\
  List.length (saveToHistory now iso fileName fileData prev) = List.length prev.
Proof.
  intros Hin Hnd Hlen.
  pose proof (keep_all_but_one fileName prev Hnd Hin) as Hone.
  rewrite saveToHistory_cons.
  rewrite firstn_all2 by lia.
  split; [reflexivity|simpl; exact Hone].
Qed.

Lemma saveToHistory_known_name_witness :
  saveToHistory 9 "t9" "a.png" "A2"
    [mkEntry 2 "b.png" "B" "t2"; mkEntry 1 "a.png" "A" "t1"]
  = [mkEntry 9 "a.png" "A2" "t9"; mkEntry 2 "b.png" "B" "t2"].
Proof.
  refine (proj1 (saveToHistory_known_name 9 "t9" "a.png" "A2"
                   [mkEntry 2 "b.png" "B" "t2"; mkEntry 1 "a.png" "A" "t1"]
                   _ _ _)).
  - simpl; tauto.
  - simpl; repeat constructor; simpl; intuition discriminate.
  - simpl; lia.
Defined.

(** X9: removing an id leaves exactly the entries of the other ids, in their
    order; removing it again changes nothing, and removing an id that no
    entry has changes nothing. *)
Theorem removeFromHistory_exact (id0 : Z) (prev : list entry) :
  (forall h, In h (removeFromHistory id0 prev) <-> In h prev /\ id h <> id0) /\
  removeFromHistory id0 (removeFromHistory id0 prev)
  = removeFromHistory id0 prev /\
  ((forall h, In h prev -> id h <> id0) -> removeFromHistory id0 prev = prev).
Proof.
  unfold removeFromHistory; split; [|split].
  - intros h; rewrite filter_In, negb_true_iff, Z.eqb_neq; tauto.
  - apply forallb_filter_id, forallb_forall; intros h Hin.
    now apply filter_In in Hin.
  - intros Hall; apply forallb_filter_id, forallb_forall; intros h Hin.
    now apply negb_true_iff, Z.eqb_neq, Hall.
Qed.

(** X10: the id is the time of the upload in milliseconds, so two files
    saved within the same millisecond share it: both are in the history,
    and removing one of them removes both. *)
Theorem same_millisecond_removed_together (now : Z)
  (iso1 iso2 name1 name2 data1 data2 : string) :
  name1 <> name2 ->
  saveToHistory now iso2 name2 data2 (saveToHistory now iso1 name1 data1 [])
  = [mkEntry now name2 data2 iso2; mkEntry now name1 data1 iso1] /\
  removeFromHistory now
    (saveToHistory now iso2 name2 data2 (saveToHistory now iso1 name1 data1 []))
  = [].
Proof.
  intros Hne.
  assert (E : saveToHistory now iso2 name2 data2
                (saveToHistory now iso1 name1 data1 [])
              = [mkEntry now name2 data2 iso2; mkEntry now name1 data1 iso1]).
  { unfold saveToHistory; simpl.
    apply String.eqb_neq in Hne; now rewrite Hne. }
  split; [exact E|].
  rewrite E; unfold removeFromHistory; simpl; now rewrite Z.eqb_refl.
Qed.

Lemma same_millisecond_removed_together_witness :
  removeFromHistory 1700000000000
    (saveToHistory 1700000000000 "t" "right.png" "R"
       (saveToHistory 1700000000000 "t" "left.png" "L" []))
  = [].
Proof.
  refine (proj2 (same_millisecond_removed_together 1700000000000
                   "t" "t" "left.png" "right.png" "L" "R" _)).
  discriminate.
Defined.

End HistoryFacts.

Lemma removeFromHistory_exact_witness :
  History.removeFromHistory 7
    [History.mkEntry 2 "b.png" "B" "t2"; History.mkEntry 1 "a.png" "A" "t1"]
  = [History.mkEntry 2 "b.png" "B" "t2"; History.mkEntry 1 "a.png" "A" "t1"].
Proof.
  refine (proj2 (proj2 (removeFromHistory_exact 7 _)) _).
  simpl; intros h [<-|[<-|[]]]; simpl; lia.
Defined.

(** ** The name shown for an entry *)

Lemma string_length_append (a b : string) :
  String.length (a ++ b) = (String.length a + String.length b)%nat.
Proof.
  induction a as [|c a IH]; simpl; [reflexivity|now rewrite IH].
Qed.

Lemma substring_0_length (n : nat) (s : string) :
  String.length (String.substring 0 n s) = Nat.min n (String.length s).
Proof.
  revert s; induction n as [|n IH]; intros [|c s]; simpl; trivial.
  now rewrite IH.
Qed.

Lemma substring_0_front (n : nat) (s : string) :
  exists rest, s = String.substring 0 n s ++ rest.
Proof.
  revert s; induction n as [|n IH]; intros [|c s]; simpl.
  - now exists "".
  - now exists (String c s).
  - now exists "".
  - destruct (IH s) as [rest Hr]; exists rest; now rewrite <- Hr.
Qed.

(** X11: the name shown for an entry of the history never has more than 25
    characters: a name of at most 25 characters is shown as it is, a longer
    one as its first 22 characters followed by three dots. *)
Theorem shownName_bounded (item : History.entry) :
  (String.length (History.shownName item) <= 25)%nat /\
  ((String.length (History.name item) <= 25)%nat ->
   History.shownName item = History.name item) /\
  ((25 < String.length (History.name item))%nat ->
   String.length (History.shownName item) = 25%nat /\
   exists front rest,
     History.name item = front ++ rest /\
     String.length front = 22%nat /\
     History.shownName item = front ++ "...").
Proof.
  unfold History.shownName.
  destruct (Nat.ltb_spec 25 (String.length (History.name item))) as [Hl|Hs].
  - assert (L : String.length (String.substring 0 22 (History.name item))
                = 22%nat)
      by (rewrite substring_0_length; lia).
    assert (T : String.length
                  (String.substring 0 22 (History.name item) ++ "...")
                = 25%nat)
      by (rewrite string_length_append, L; reflexivity).
    split; [lia|]; split; [lia|].
    intros _; split; [exact T|].
    destruct (substring_0_front 22 (History.name item)) as [rest Hr].
    now exists (String.substring 0 22 (History.name item)), rest.
  - split; [exact Hs|]; split; [reflexivity|lia].
Qed.

Lemma shownName_bounded_witness :
  String.length
    (History.shownName
       (History.mkEntry 1 "mammogram_left_mlo_2024_01.png" "" "t"))
  = 25%nat.
Proof.
  refine (proj1 (proj2 (proj2 (shownName_bounded
                                 (History.mkEntry 1
                                    "mammogram_left_mlo_2024_01.png" "" "t")))
                   _)).
  simpl; lia.
Defined.

(** ** Images *)

(** X12: [asDataUrl] gives [null] exactly for a missing, [null] or empty
    value, never [undefined] nor an empty string, and on the other values
    it loses nothing: two values with the same data address are equal. *)
Theorem asDataUrl_faithful (v w : jsopt string) :
  (asDataUrl v = null <-> JsText.truthy_opt v = false) /\
  asDataUrl v <> undefined /\
  JsText.truthy_opt (asDataUrl v) = JsText.truthy_opt v /\
  (JsText.truthy_opt v = true -> asDataUrl v = asDataUrl w -> v = w).
Proof.
  destruct v as [| |[|c s]]; cbn; repeat split; try discriminate; trivial.
  intros _; destruct w as [| |[|d t]]; cbn; try discriminate.
  intros H; now inversion H.
Qed.

Lemma asDataUrl_faithful_witness :
  val "iVBORw0KGgo" = val "iVBORw0KGgo" :> jsopt string.
Proof.
  refine (proj2 (proj2 (proj2 (asDataUrl_faithful (val "iVBORw0KGgo")
                                 (val "iVBORw0KGgo")))) _ _);
    reflexivity.
Defined.

(** X13: in the results built from a response, the tab "original" shows the
    annotated image of the cancer type when the response has one and the
    original image otherwise, and nothing only when both are missing; a tab
    that is none of "heatmap", "bbox" and "original" shows the overlay. *)
Theorem active_image_of_response (data_images : jsopt Images.t)
  (images : Images.t) (visualTab : string) :
  getActiveVisualImage "original" (resultVisuals (val images))
  = (if JsText.truthy_opt (Images.cancer_type images)
     then asDataUrl (Images.cancer_type images)
     else asDataUrl (Images.original images)) /\
  (getActiveVisualImage "original" (resultVisuals (val images)) = null <->
   JsText.truthy_opt (Images.cancer_type images) = false /\
   JsText.truthy_opt (Images.original images) = false) /\
  (visualTab <> "heatmap" -> visualTab <> "bbox" -> visualTab <> "original" ->
   getActiveVisualImage visualTab (resultVisuals data_images)
   = Visuals.overlay (resultVisuals data_images)).
Proof.
  split; [|split].
  - destruct images as [o ov h b [| |[|c s]]]; reflexivity.
  - destruct images as [[| |[|d t]] ov h b [| |[|c s]]]; cbn;
      intuition discriminate.
  - intros H1 H2 H3; unfold getActiveVisualImage.
    apply String.eqb_neq in H1, H2, H3; now rewrite H1, H2, H3.
Qed.

Lemma active_image_of_response_witness :
  getActiveVisualImage "summary"
    (resultVisuals (val (Images.mk (val "AAAA") (val "BBBB") null null null)))
  = val "data:image/png;base64,BBBB".
Proof.
  destruct (active_image_of_response
              (val (Images.mk (val "AAAA") (val "BBBB") null null null))
              Images.empty "summary") as [_ [_ H]].
  rewrite H; [reflexivity| | |]; discriminate.
Defined.

(** The images of a response are data addresses or [null]. *)
Lemma active_image_shape (visualTab : string) (data_images : jsopt Images.t) :
  getActiveVisualImage visualTab (resultVisuals data_images) = null \/
  exists s, truthy s = true /\
    getActiveVisualImage visualTab (resultVisuals data_images)
    = val ("data:image/png;base64," ++ s).
Proof.
  assert (A : forall v, asDataUrl v = null \/
                exists s, truthy s = true /\
                  asDataUrl v = val ("data:image/png;base64," ++ s)).
  { intros [| |[|c s]]; cbn; try (now left).
    right; now exists (String c s). }
  unfold getActiveVisualImage, resultVisuals; cbn.
  destruct (String.eqb visualTab "heatmap"); [apply A|].
  destruct (String.eqb visualTab "bbox"); [apply A|].
  destruct (String.eqb visualTab "original"); [|apply A].
  unfold JsText.or_string.
  match goal with |- context [JsText.truthy_opt ?x] =>
    destruct (JsText.truthy_opt x) end; apply A.
Qed.

(** X14: with the results of a response, [handleDownloadImage] either sets
    the message "No image available to download" and downloads nothing,
    which happens exactly when the active image is missing, or downloads
    the active image, a PNG data address, under a name that ends with
    ".png", and reports that name in the status message. *)
Theorem handleDownloadImage_outcome (visualTab : string)
  (data_images : jsopt Images.t) :
  match handleDownloadImage visualTab (resultVisuals data_images) with
  | NoDownload errorMessage =>
      errorMessage = "No image available to download" /\
      getActiveVisualImage visualTab (resultVisuals data_images) = null
  | Download href filename statusMessage =>
      getActiveVisualImage visualTab (resultVisuals data_images) = val href /\
      JsText.startsWith href "data:image/png;base64," = true /\
      JsText.endsWith filename ".png" = true /\
      statusMessage = "Downloaded: " ++ filename
  end.
Proof.
  unfold handleDownloadImage.
  destruct (active_image_shape visualTab data_images) as [->|[s [Hs ->]]].
  - split; reflexivity.
  - cbn [truthy append].
    split; [reflexivity|]; split; [apply prefix_app; now exists s|].
    destruct (String.eqb visualTab "heatmap"); [split; reflexivity|].
    destruct (String.eqb visualTab "bbox"); [split; reflexivity|].
    destruct (String.eqb visualTab "original"); split; reflexivity.
Qed.

(** ** Classes of the result and of the risk, on every label *)

Lemma or_empty (l : string) : (if truthy l then l else "") = l.
Proof. destruct l; reflexivity. Qed.

(** X15: the class of a result label is "result-malignant" exactly when the
    lower-cased label contains "malignant" or "cancerous", and
    "result-benign" exactly when it contains "benign" and neither of them.
    A label that contains "non-cancerous" contains "cancerous": it gets
    "result-malignant", and the test for "non-cancerous" never decides. *)
Theorem getResultClass_classes (r : Results) (s : string) :
  result r = val s ->
  (getResultClass r = "result-malignant" <->
   includes (toLowerCase s) "malignant" = true \/
   includes (toLowerCase s) "cancerous" = true) /\
  (getResultClass r = "result-benign" <->
   includes (toLowerCase s) "benign" = true /\
   includes (toLowerCase s) "malignant" = false /\
   includes (toLowerCase s) "cancerous" = false) /\
  (includes (toLowerCase s) "non-cancerous" = true ->
   getResultClass r = "result-malignant").
Proof.
  intros Hr; unfold getResultClass; rewrite Hr, or_empty.
  generalize (toLowerCase s); intros u.
  assert (Hnon : includes u "non-cancerous" = true ->
                 includes u "cancerous" = true).
  { intros H; apply (includes_trans u _ _ H); reflexivity. }
  revert Hnon.
  split_includes u; intros Hnon; try (specialize (Hnon eq_refl));
    intuition discriminate.
Qed.

Lemma getResultClass_classes_witness :
  getResultClass
    (resultData (Data.mk undefined undefined undefined
                         (val "Non-Cancerous (Benign)") undefined undefined
                         undefined))
  = "result-malignant".
Proof.
  refine (proj2 (proj2 (getResultClass_classes _ "Non-Cancerous (Benign)" _))
            _); reflexivity.
Defined.

(** X16: on every risk label the class is "risk-high" exactly when the
    lower-cased label contains "very high risk", or "high risk" without
    "moderate"; "risk-moderate" exactly when it contains "moderate" and not
    "very high risk"; "risk-low" exactly when it contains "low risk" and
    neither "high risk" nor "moderate"; and empty exactly when it contains
    none of "moderate", "high risk" and "low risk". *)
Theorem getRiskClass_classes (r : Results) (s : string) :
  risk r = val s ->
  (getRiskClass r = "risk-high" <->
   includes (toLowerCase s) "very high risk" = true \/
   (includes (toLowerCase s) "high risk" = true /\
    includes (toLowerCase s) "moderate" = false)) /\
  (getRiskClass r = "risk-moderate" <->
   includes (toLowerCase s) "moderate" = true /\
   includes (toLowerCase s) "very high risk" = false) /\
  (getRiskClass r = "risk-low" <->
   includes (toLowerCase s) "low risk" = true /\
   includes (toLowerCase s) "high risk" = false /\
   includes (toLowerCase s) "moderate" = false) /\
  (getRiskClass r = "" <->
   includes (toLowerCase s) "moderate" = false /\
   includes (toLowerCase s) "high risk" = false /\
   includes (toLowerCase s) "low risk" = false).
Proof.
  intros Hr; unfold getRiskClass; rewrite Hr, or_empty.
  generalize (toLowerCase s); intros u.
  assert (Hhigh : includes u "very high risk" = true ->
                  includes u "high risk" = true).
  { intros H; apply (includes_trans u _ _ H); reflexivity. }
  assert (Hlow : includes u "very low risk" = true ->
                 includes u "low risk" = true).
  { intros H; apply (includes_trans u _ _ H); reflexivity. }
  revert Hhigh Hlow.
  split_includes u; intros Hhigh Hlow;
    try (specialize (Hhigh eq_refl)); try (specialize (Hlow eq_refl));
    intuition discriminate.
Qed.

Lemma getRiskClass_classes_witness :
  getRiskClass (resultDataRisk "Moderate to High Risk") = "risk-moderate".
Proof.
  refine (proj2 (proj1 (proj2 (getRiskClass_classes _
                                 "Moderate to High Risk" _))) _);
    [reflexivity|split; reflexivity].
Defined.

(** X17: when the response has no risk level, or no result, the record shows
    "Unavailable", or "Analysis Result", and the label gets no class. *)
Theorem missing_labels_get_no_class (data : Data.t) :
  (Data.risk_level data = undefined \/ Data.risk_level data = null ->
   risk (resultData data) = val "Unavailable" /\
   getRiskClass (resultData data) = "") /\
  (Data.result data = undefined \/ Data.result data = null ->
   result (resultData data) = val "Analysis Result" /\
   getResultClass (resultData data) = "").
Proof.
  split; intros [H|H]; unfold getRiskClass, getResultClass, resultData;
    cbn [risk result]; rewrite H; split; reflexivity.
Qed.

Lemma missing_labels_get_no_class_witness :
  getRiskClass
    (resultData (Data.mk (val JsNumber.half) (val JsNumber.half) null
                         (val "Benign") undefined undefined undefined))
  = "".
Proof.
  refine (proj2 (proj1 (missing_labels_get_no_class _) _)).
  right; reflexivity.
Defined.

(** ** The message of a failed analysis *)

(** X18: the message set after a failed analysis is never empty.  A request
    that was aborted gets the message of the time-out whatever its text; an
    error of another name whose text is not empty and mentions neither
    "Failed to fetch" nor "NetworkError" is shown with its own text. *)
Theorem analysisErrorMessage_shown (apiBase : string) (error : JsError.t) :
  analysisErrorMessage apiBase error <> "" /\
  (JsError.name error = "AbortError" ->
   analysisErrorMessage apiBase error
   = "Request timed out. The backend server may be starting up (this can take 1-2 minutes on free hosting). Please try again.") /\
  (JsError.name error <> "AbortError" ->
   JsError.message error <> "" ->
   includes (JsError.message error) "Failed to fetch" = false ->
   includes (JsError.message error) "NetworkError" = false ->
   analysisErrorMessage apiBase error = JsError.message error).
Proof.
  unfold analysisErrorMessage; split; [|split].
  - destruct (String.eqb (JsError.name error) "AbortError"); [discriminate|].
    destruct (includes (JsError.message error) "Failed to fetch"
              || includes (JsError.message error) "NetworkError");
      [discriminate|].
    destruct (JsError.message error); [discriminate|discriminate].
  - intros ->; reflexivity.
  - intros Hn Hm H1 H2; apply String.eqb_neq in Hn; rewrite Hn, H1, H2.
    destruct (JsError.message error); [contradiction|reflexivity].
Qed.

Lemma analysisErrorMessage_shown_witness :
  analysisErrorMessage "http://localhost:8001"
    (JsError.mk "Error" "Server error: 500")
  = "Server error: 500".
Proof.
  refine (proj2 (proj2 (analysisErrorMessage_shown "http://localhost:8001"
                          (JsError.mk "Error" "Server error: 500")))
            _ _ _ _); try reflexivity; discriminate.
Defined.

(** ** More on the view code *)

(** A name that does not include [sub] includes no token that includes
    [sub]. *)
Lemma no_sub (u tok sub : string) :
  includes u sub = false -> includes tok sub = true -> includes u tok = false.
Proof.
  intros Hu Ht; destruct (includes u tok) eqn:E; [|reflexivity].
  now rewrite (includes_trans u tok sub E Ht) in Hu.
Qed.

(** X19: a name gets no view code exactly when its upper-cased form
    contains neither "MLO" nor "CC": every token of a side contains one of
    the two. *)
Theorem no_view_code_iff (filename : string) :
  extractViewCodeFromFilename filename = None <->
  includes (toUpperCase filename) "MLO" = false /\
  includes (toUpperCase filename) "CC" = false.
Proof.
  unfold extractViewCodeFromFilename.
  generalize (toUpperCase filename); intros u; cbn zeta; split.
  - split_includes u; intros H; try discriminate; split; reflexivity.
  - intros [HP HQ].
    repeat match goal with
           | |- context [includes u ?tok] =>
               first [ rewrite (no_sub u tok "MLO" HP eq_refl)
                     | rewrite (no_sub u tok "CC" HQ eq_refl) ]
           end.
    reflexivity.
Qed.

Lemma has_token_sub (u sub : string) (tokens : list string) :
  forallb (fun tok => includes tok sub) tokens = true ->
  has_token u tokens = true -> includes u sub = true.
Proof.
  intros Hall Hhas; apply existsb_exists in Hhas as [tok [Hin Htok]].
  apply (includes_trans u tok sub Htok).
  rewrite forallb_forall in Hall; now apply Hall.
Qed.

(** X20: a view code is only given to a name that has one of its tokens;
    the code is of one family, MLO or CC, never of both, and the name of
    that family occurs in the upper-cased name. *)
Theorem view_code_sound (filename vc : string) :
  extractViewCodeFromFilename filename = Some vc ->
  (exists tokens,
     In (tokens, vc) view_order /\
     has_token (toUpperCase filename) tokens = true) /\
  includes vc "MLO" = negb (includes vc "CC") /\
  (includes vc "MLO" = true ->
   includes (toUpperCase filename) "MLO" = true) /\
  (includes vc "CC" = true ->
   includes (toUpperCase filename) "CC" = true).
Proof.
  rewrite chain_first_match; unfold first_match.
  destruct (find _ view_order) as [[tokens code]|] eqn:E; [|discriminate].
  intros H; injection H as <-.
  apply find_some in E as [Hin Hhas]; cbn [fst] in Hhas.
  split; [now exists tokens|].
  generalize dependent (toUpperCase filename); intros u Hhas.
  cbn in Hin.
  repeat destruct Hin as [Hin|Hin]; try contradiction;
    injection Hin as <- <-;
    (split; [reflexivity|]); split; intros Hfam; vm_compute in Hfam;
    try discriminate Hfam;
    (eapply has_token_sub; [|exact Hhas]; reflexivity).
Qed.

Lemma view_code_sound_witness :
  includes (toUpperCase "exam_right_cc_2.png") "CC" = true.
Proof.
  refine (proj2 (proj2 (proj2 (view_code_sound "exam_right_cc_2.png" "RCC" _)))
            _); reflexivity.
Defined.

Lemma upper_upper_char (c : ascii) : upper_char (upper_char c) = upper_char c.
Proof.
  destruct c as [[] [] [] [] [] [] [] []]; reflexivity.
Qed.

Lemma upper_lower_char (c : ascii) : upper_char (lower_char c) = upper_char c.
Proof.
  destruct c as [[] [] [] [] [] [] [] []]; reflexivity.
Qed.

Lemma toUpperCase_toUpperCase (s : string) :
  toUpperCase (toUpperCase s) = toUpperCase s.
Proof.
  induction s as [|c s IH]; [reflexivity|].
  cbn [toUpperCase map_chars] in *; now rewrite upper_upper_char, IH.
Qed.

Lemma toUpperCase_toLowerCase (s : string) :
  toUpperCase (toLowerCase s) = toUpperCase s.
Proof.
  induction s as [|c s IH]; [reflexivity|].
  cbn [toUpperCase toLowerCase map_chars] in *;
    now rewrite upper_lower_char, IH.
Qed.

(** X21: on a name of ASCII characters the view code does not depend on the
    case of the letters: the name, its upper-cased form and its lower-cased
    form get the same code. *)
Theorem view_code_ignores_case (filename : string) :
  is_ascii filename = true ->
  extractViewCodeFromFilename (toUpperCase filename)
  = extractViewCodeFromFilename filename /\
  extractViewCodeFromFilename (toLowerCase filename)
  = extractViewCodeFromFilename filename.
Proof.
  intros _; unfold extractViewCodeFromFilename.
  now rewrite toUpperCase_toUpperCase, toUpperCase_toLowerCase.
Qed.

Lemma view_code_ignores_case_witness :
  extractViewCodeFromFilename (toLowerCase "Scan_Left_MLO.PNG")
  = extractViewCodeFromFilename "Scan_Left_MLO.PNG".
Proof.
  refine (proj2 (view_code_ignores_case "Scan_Left_MLO.PNG" _)).
  reflexivity.
Defined.

(** ** The two handlers on the state *)

(** X22: choosing files and dropping them change the file and the results
    in the same way.  With no file the state is unchanged; otherwise the
    first file becomes the current one and, of the results, only the view
    analysis can change. *)
Theorem handlers_agree_and_frame (files : list string) (st : AppState) :
  handleDrop files st = handleFileChange files st /\
  (files = [] -> handleFileChange files st = st) /\
  (forall f rest, files = f :: rest ->
   file (handleFileChange files st) = Some f /\
   malignant (results (handleFileChange files st)) = malignant (results st) /\
   benign (results (handleFileChange files st)) = benign (results st) /\
   risk (results (handleFileChange files st)) = risk (results st) /\
   result (results (handleFileChange files st)) = result (results st) /\
   confidence (results (handleFileChange files st))
   = confidence (results st) /\
   rawScore (results (handleFileChange files st)) = rawScore (results st) /\
   threshold (results (handleFileChange files st)) = threshold (results st)).
Proof.
  split; [destruct files; reflexivity|].
  split; [intros ->; reflexivity|].
  intros f rest ->; unfold handleFileChange; cbn zeta.
  destruct (extractViewCodeFromFilename f) as [vc|]; [|repeat split].
  destruct (truthy vc); repeat split.
Qed.

Lemma handlers_agree_and_frame_witness :
  risk (results (handleFileChange ["LCC_17.png"]
                   (mkAppState None (resultDataRisk "Low Risk"))))
  = val "Low Risk".
Proof.
  destruct (handlers_agree_and_frame ["LCC_17.png"]
              (mkAppState None (resultDataRisk "Low Risk")))
    as [_ [_ H]].
  destruct (H "LCC_17.png" [] eq_refl) as [_ [_ [_ [Hrisk _]]]].
  rewrite Hrisk; reflexivity.
Defined.

(** X23: the view analysis is not cleared by a name without a token: when a
    file whose name has a view code is chosen and then a file whose name
    has none, the results still hold the view analysis of the first name
    while the current file is the second. *)
Theorem view_analysis_outlives_file (f g : string) (rest rest' : list string)
  (st : AppState) (vc : string) :
  extractViewCodeFromFilename f = Some vc ->
  extractViewCodeFromFilename g = None ->
  file (handleFileChange (g :: rest') (handleFileChange (f :: rest) st))
  = Some g /\
  view_analysis
    (results (handleFileChange (g :: rest') (handleFileChange (f :: rest) st)))
  = val (provisional vc).
Proof.
  intros Hf Hg; split; [reflexivity|].
  destruct (handlers_none g rest' (handleFileChange (f :: rest) st) Hg)
    as [-> _].
  destruct (handlers_some f rest st vc Hf) as [-> _]; reflexivity.
Qed.

Lemma view_analysis_outlives_file_witness :
  view_analysis
    (results (handleFileChange ["IMG_0002.png"]
                (handleFileChange ["R-MLO_0001.png"] initialState)))
  = val (provisional "R-MLO").
Proof.
  refine (proj2 (view_analysis_outlives_file "R-MLO_0001.png" "IMG_0002.png"
                   [] [] initialState "R-MLO" _ _)); reflexivity.
Defined.

(** ** Confidence of the result record *)

(** X24: the confidence percent of the result record is [null] only when
    the response has no confidence property at all, while the raw score is
    [null] also for a [null] confidence; neither is ever [undefined]. *)
Theorem confidence_null_iff (data : Data.t) :
  (confidence (resultData data) = null <-> Data.confidence data = undefined) /\
  (rawScore (resultData data) = null <->
   Data.confidence data = undefined \/ Data.confidence data = null) /\
  confidence (resultData data) <> undefined /\
  rawScore (resultData data) <> undefined.
Proof.
  unfold resultData, confidencePercent; cbn [confidence rawScore].
  destruct (Data.confidence data) as [| |x];
    cbn [JsNumber.is_defined JsNumber.ToNumber andb nullish].
  - intuition congruence.
  - change (JsNumber.leb (S754_zero false) JsNumber.one) with true.
    cbv iota; intuition congruence.
  - destruct (JsNumber.leb x JsNumber.one); intuition congruence.
Qed.
